(** * PlanetariumWarper: [Program.cpp]

    A shallow embedding of [Program.cpp] and the properties of its
    lifecycle methods.

    The C++ class [Program] keeps one flag, [m_exit], and a shader wrapper,
    [m_shader].  Everything else it does is a call into the graphics API,
    into the shader wrapper, or a write to a caller-owned configuration
    record.  The embedding therefore threads one [Machine] state through
    every method: the [Program] object, the store of configuration records,
    and the log of the calls issued so far, oldest first. *)

From Stdlib Require Import ZArith Bool List Ascii String Lia.
From Stdlib Require Import Floats.SpecFloat.
From stdpp Require Import base option list gmap strings.

Local Open Scope string_scope.
Local Open Scope list_scope.
Local Open Scope Z_scope.

(** ** Scalar types of the graphics API *)

Abbreviation GLenum := Z (only parsing).
Abbreviation GLuint := Z (only parsing).
Abbreviation GLint := Z (only parsing).
Abbreviation GLsizei := Z (only parsing).
Abbreviation GLbitfield := Z (only parsing).
Abbreviation GLboolean := bool (only parsing).

(** A [GLfloat] is an IEEE 754 binary32 datum: 24 bits of precision,
    exponents below 128. *)
Abbreviation GLfloat := spec_float (only parsing).

Definition f32_prec : Z := 24.
Definition f32_emax : Z := 128.

(** The literal [z.0f], for an integer [z]. *)
Definition f32 (z : Z) : GLfloat := binary_normalize f32_prec f32_emax z 0 false.

Definition f32_leb (x y : GLfloat) : bool := SFleb x y.

(** Constants of [<GL/glew.h>] that [Program.cpp] names. *)
Definition GL_TRUE : GLboolean := true.
Definition GL_FALSE : GLboolean := false.
Definition GL_TRIANGLE_STRIP : GLenum := 0x0005.
Definition GL_DONT_CARE : GLenum := 0x1100.
Definition GL_FLOAT : GLenum := 0x1406.
Definition GL_COLOR_BUFFER_BIT : GLbitfield := 0x4000.
Definition GL_DEBUG_OUTPUT_SYNCHRONOUS : GLenum := 0x8242.
Definition GL_FRAGMENT_SHADER : GLenum := 0x8B30.
Definition GL_VERTEX_SHADER : GLenum := 0x8B31.

(** [#define WINDOW_WIDTH 512] and [#define WINDOW_HEIGHT 512]. *)
Definition WINDOW_WIDTH : Z := 512.
Definition WINDOW_HEIGHT : Z := 512.

(** ** Standard output *)

(** [std::cout], as the text written to it so far. *)
Abbreviation ostream := string (only parsing).

(** [os << std::endl]: a newline (the flush leaves the text as it is). *)
Definition endl (os : ostream) : ostream := os +:+ String "010"%char EmptyString.

(** The text of the C string held in a buffer: the characters before the
    first NUL. *)
Fixpoint c_str (s : string) : string :=
  match s with
  | EmptyString => EmptyString
  | String c s' =>
      if Ascii.eqb c "000"%char then EmptyString else String c (c_str s')
  end.

(** A buffer without a NUL character. *)
Fixpoint NUL_free (s : string) : bool :=
  match s with
  | EmptyString => true
  | String c s' => negb (Ascii.eqb c "000"%char) && NUL_free s'
  end.

(** [os << s] for a [const char *s]: the characters of [s] up to the first
    NUL are written, and no more. *)
Definition put (s : string) (os : ostream) : ostream := os +:+ c_str s.

(** ** The debug callback *)

(** [GLDEBUGPROC]: what the driver passes to a debug callback, and the
    callback's effect on standard output. *)
Definition GLDEBUGPROC : Type :=
  GLenum -> GLenum -> GLuint -> GLenum -> GLsizei -> string -> option Z ->
  ostream -> ostream.

(** [ETB_GL_ERROR_CALLBACK]:
    [std::cout << reinterpret_cast<const char*>(message) << std::endl;] *)
Definition ETB_GL_ERROR_CALLBACK : GLDEBUGPROC :=
  fun source type id severity length message userParam cout =>
    endl (put message cout).

(** ** Calls that leave [Program.cpp] *)

(** One constructor per function of the graphics API that the file calls,
    with the arguments of the call, and one per method of the shader
    wrapper.  The pointer handed to [glVertexAttribPointer] is modelled by
    the array it points to; a null pointer is [None]. *)
Inductive GLCall : Type :=
  | glewInit
  | glEnable (cap : GLenum)
  | glDebugMessageControl (source type severity : GLenum)
      (count : GLsizei) (ids : option (list GLuint)) (enabled : GLboolean)
  | glDebugMessageCallback (callback : option GLDEBUGPROC) (userParam : option Z)
  | glBindAttribLocation (program index : GLuint) (name : string)
  | glViewport (x y : GLint) (width height : GLsizei)
  | glClearColor (red green blue alpha : GLfloat)
  | glColorMask (red green blue alpha : GLboolean)
  | glClear (mask : GLbitfield)
  | glVertexAttribPointer (index : GLuint) (size : GLint) (type : GLenum)
      (normalized : GLboolean) (stride : GLsizei) (pointer : list GLfloat)
  | glEnableVertexAttribArray (index : GLuint)
  | glDrawArrays (mode : GLenum) (first : GLint) (count : GLsizei)
  | glUseProgram (program : GLuint)
  | Shader_LoadShader (file : string) (stage : GLenum)
  | Shader_Link
  | Shader_Enable
  | Shader_Disable.

(** ** Collaborators declared outside [Program.cpp] *)

(** Modelled from the spec: [Shader.h] is not among the sources.  The shader
    wrapper "exposes enable/disable and a program handle"; its methods are
    recorded in the call log, and the handle is a field of the wrapper. *)
Record Shader : Type := { GetProgramHandle : GLuint }.

(** Modelled from the spec: [ProgramConfiguration.h] is not among the
    sources.  "A passive configuration record (title, window width/height,
    GL version)"; each setter stores its argument in its field. *)
Record ProgramConfiguration : Type := {
  Title : string;
  WindowWidth : Z;
  WindowHeight : Z;
  GLMajorVersion : Z;
  GLMinorVersion : Z
}.

Definition cfg_SetTitle (t : string) (c : ProgramConfiguration) :=
  {| Title := t; WindowWidth := WindowWidth c; WindowHeight := WindowHeight c;
     GLMajorVersion := GLMajorVersion c; GLMinorVersion := GLMinorVersion c |}.
Definition cfg_SetWindowWidth (w : Z) (c : ProgramConfiguration) :=
  {| Title := Title c; WindowWidth := w; WindowHeight := WindowHeight c;
     GLMajorVersion := GLMajorVersion c; GLMinorVersion := GLMinorVersion c |}.
Definition cfg_SetWindowHeight (h : Z) (c : ProgramConfiguration) :=
  {| Title := Title c; WindowWidth := WindowWidth c; WindowHeight := h;
     GLMajorVersion := GLMajorVersion c; GLMinorVersion := GLMinorVersion c |}.
Definition cfg_SetGLMajorVersion (v : Z) (c : ProgramConfiguration) :=
  {| Title := Title c; WindowWidth := WindowWidth c; WindowHeight := WindowHeight c;
     GLMajorVersion := v; GLMinorVersion := GLMinorVersion c |}.
Definition cfg_SetGLMinorVersion (v : Z) (c : ProgramConfiguration) :=
  {| Title := Title c; WindowWidth := WindowWidth c; WindowHeight := WindowHeight c;
     GLMajorVersion := GLMajorVersion c; GLMinorVersion := v |}.

(** Modelled from the spec: [InputState.h] is not among the sources.  "A
    passive, externally-owned snapshot of current input (queried, never
    mutated, by Program)".  [Program.cpp] names one key, [ESCAPE]; the other
    keys of the enumeration are kept apart by a number. *)
Inductive InputKey : Type :=
  | ESCAPE
  | OTHER_KEY (code : nat).

Record InputState : Type := { IsKeyPressed : InputKey -> bool }.

(** ** The [Program] object and the machine it runs on *)

(** [class Program]: [bool m_exit; Shader m_shader;]. *)
Record Program : Type := {
  m_exit : bool;
  m_shader : Shader
}.

(** The address of a configuration record: what a
    [ProgramConfiguration &] refers to. *)
Abbreviation addr := positive (only parsing).

Record Machine : Type := {
  this : Program;
  configs : gmap positive ProgramConfiguration;
  glewExperimental : GLboolean;
  gl_log : list GLCall;
  cout : string
}.

(** A method is a state transformer with a result. *)
Definition M (A : Type) : Type := Machine -> A * Machine.

#[export] Instance M_ret : MRet M := fun A (a : A) (m : Machine) => (a, m).
#[export] Instance M_bind : MBind M :=
  fun A B (k : A -> M B) (c : M A) (m : Machine) =>
    let (a, m') := c m in k a m'.

(** The machine a method leaves behind, and the value it returns. *)
Definition exec {A} (c : M A) (m : Machine) : Machine := snd (c m).
Definition eval {A} (c : M A) (m : Machine) : A := fst (c m).

(** Issue one call: it is appended to the log.  What the driver reports
    while the call runs is not part of the call: a report is a step of its
    own, [driver_reports] below, and only such a step writes to [cout]. *)
Definition call (c : GLCall) : M unit :=
  fun m => (tt, {| this := this m; configs := configs m;
                   glewExperimental := glewExperimental m;
                   gl_log := gl_log m ++ [c]; cout := cout m |}).

(** [glewExperimental = b;] *)
Definition set_glewExperimental (b : GLboolean) : M unit :=
  fun m => (tt, {| this := this m; configs := configs m;
                   glewExperimental := b;
                   gl_log := gl_log m; cout := cout m |}).

(** [m_exit = b;] *)
Definition set_m_exit (b : bool) : M unit :=
  fun m => (tt, {| this := {| m_exit := b; m_shader := m_shader (this m) |};
                   configs := configs m;
                   glewExperimental := glewExperimental m;
                   gl_log := gl_log m; cout := cout m |}).

(** Apply a setter to the record a reference refers to, in place.  A C++
    reference always refers to a live record; at an address that holds no
    record nothing is written. *)
Definition on_config (config : addr) (f : ProgramConfiguration -> ProgramConfiguration)
  : M unit :=
  fun m => (tt, {| this := this m; configs := alter f config (configs m);
                   glewExperimental := glewExperimental m;
                   gl_log := gl_log m; cout := cout m |}).

Definition SetTitle (config : addr) (t : string) : M unit :=
  on_config config (cfg_SetTitle t).
Definition SetWindowWidth (config : addr) (w : Z) : M unit :=
  on_config config (cfg_SetWindowWidth w).
Definition SetWindowHeight (config : addr) (h : Z) : M unit :=
  on_config config (cfg_SetWindowHeight h).
Definition SetGLMajorVersion (config : addr) (v : Z) : M unit :=
  on_config config (cfg_SetGLMajorVersion v).
Definition SetGLMinorVersion (config : addr) (v : Z) : M unit :=
  on_config config (cfg_SetGLMinorVersion v).

(** [m_shader.GetProgramHandle()] *)
Definition shader_GetProgramHandle : M GLuint :=
  fun m => (GetProgramHandle (m_shader (this m)), m).

(** ** The methods of [Program] *)

(** [Program::Program() : m_exit(false) {}].  The shader wrapper is built by
    its own default constructor, whose result is the argument here. *)
Definition Program_new (shader : Shader) : Program :=
  {| m_exit := false; m_shader := shader |}.

(** [void Program::Initialize(ProgramConfiguration &config)] *)
Definition Initialize (config : addr) : M unit :=
  SetTitle config "Planetarium Warper";;
  SetWindowWidth config WINDOW_WIDTH;;
  SetWindowHeight config WINDOW_HEIGHT;;
  SetGLMajorVersion config 2;;
  SetGLMinorVersion config 0.

(** [void Program::Load()] *)
Definition Load : M unit :=
  set_glewExperimental GL_TRUE;;
  call glewInit;;
  call (glEnable GL_DEBUG_OUTPUT_SYNCHRONOUS);;
  call (glDebugMessageControl GL_DONT_CARE GL_DONT_CARE GL_DONT_CARE 0 None GL_TRUE);;
  call (glDebugMessageCallback (Some ETB_GL_ERROR_CALLBACK) None);;
  call (Shader_LoadShader "FullscreenQuad.vert" GL_VERTEX_SHADER);;
  call (Shader_LoadShader "FullscreenQuad.frag" GL_FRAGMENT_SHADER);;
  prog ← shader_GetProgramHandle;
  call (glBindAttribLocation prog 0 "vPosition");;
  call Shader_Link.

(** [void Program::Unload()] *)
Definition Unload : M unit :=
  call (glUseProgram 0).

(** [void Program::Exit()] *)
Definition Exit : M unit :=
  set_m_exit true;;
  Unload.

(** [void Program::Update(const InputState &inputState)] *)
Definition Update (inputState : InputState) : M unit :=
  if IsKeyPressed inputState ESCAPE then Exit else mret tt.

(** The local array [quad] of [Program::Draw]. *)
Definition quad : list GLfloat :=
  [ f32 (-1); f32 1;      (* v0 - top left corner *)
    f32 (-1); f32 (-1);   (* v1 - bottom left corner *)
    f32 1; f32 1;         (* v2 - top right corner *)
    f32 1; f32 (-1) ].    (* v3 - bottom right corner *)

(** [void Program::Draw()] *)
Definition Draw : M unit :=
  call (glViewport 0 0 WINDOW_WIDTH WINDOW_HEIGHT);;
  call (glClearColor (f32 0) (f32 0) (f32 0) (f32 1));;
  call (glColorMask GL_TRUE GL_TRUE GL_TRUE GL_FALSE);;
  call (glClear GL_COLOR_BUFFER_BIT);;
  call Shader_Enable;;
  call (glVertexAttribPointer 0 2 GL_FLOAT GL_FALSE 0 quad);;
  call (glEnableVertexAttribArray 0);;
  call (glDrawArrays GL_TRIANGLE_STRIP 0 4);;
  call Shader_Disable.

(** [bool Program::ReadyToExit() const] *)
Definition ReadyToExit : M bool :=
  fun m => (m_exit (this m), m).

(** ** Sequences of operations *)

(** The operations a host can invoke on a constructed [Program]. *)
Inductive Op : Type :=
  | OpInitialize (config : addr)
  | OpLoad
  | OpUpdate (inputState : InputState)
  | OpDraw
  | OpReadyToExit
  | OpExit
  | OpUnload.

Definition step (o : Op) : M unit :=
  match o with
  | OpInitialize config => Initialize config
  | OpLoad => Load
  | OpUpdate inputState => Update inputState
  | OpDraw => Draw
  | OpReadyToExit => ReadyToExit;; mret tt
  | OpExit => Exit
  | OpUnload => Unload
  end.

Fixpoint run (ops : list Op) : M unit :=
  match ops with
  | [] => mret tt
  | o :: ops' => step o;; run ops'
  end.

(** The values the exit flag takes along a run: before the first operation
    and after each one. *)
Fixpoint flag_history (ops : list Op) (m : Machine) : list bool :=
  m_exit (this m) ::
  match ops with
  | [] => []
  | o :: ops' => flag_history ops' (exec (step o) m)
  end.

(** ** Reading the call log *)

(** The calls a method adds to the log when run on [m]. *)
Definition issued {A} (c : M A) (m : Machine) : list GLCall :=
  drop (length (gl_log m)) (gl_log (exec c m)).

(** What [Program::Draw] hands to the graphics API and to the shader
    wrapper, in the order of its statements. *)
Definition Draw_calls : list GLCall :=
  [ glViewport 0 0 WINDOW_WIDTH WINDOW_HEIGHT;
    glClearColor (f32 0) (f32 0) (f32 0) (f32 1);
    glColorMask GL_TRUE GL_TRUE GL_TRUE GL_FALSE;
    glClear GL_COLOR_BUFFER_BIT;
    Shader_Enable;
    glVertexAttribPointer 0 2 GL_FLOAT GL_FALSE 0 quad;
    glEnableVertexAttribArray 0;
    glDrawArrays GL_TRIANGLE_STRIP 0 4;
    Shader_Disable ].

(** Classifiers of calls, by what the call does. *)
Definition sets_viewport_to_window (c : GLCall) : bool :=
  match c with
  | glViewport x y w h =>
      (x =? 0) && (y =? 0) && (w =? WINDOW_WIDTH) && (h =? WINDOW_HEIGHT)
  | _ => false
  end.

Definition is_zero (x : GLfloat) : bool := SFeqb x (f32 0).
Definition is_one (x : GLfloat) : bool := SFeqb x (f32 1).

Definition sets_clear_color_opaque_black (c : GLCall) : bool :=
  match c with
  | glClearColor r g b a => is_zero r && is_zero g && is_zero b && is_one a
  | _ => false
  end.

Definition clears_color_buffer (c : GLCall) : bool :=
  match c with
  | glClear mask => negb (Z.land mask GL_COLOR_BUFFER_BIT =? 0)
  | _ => false
  end.

Definition disables_alpha_writes (c : GLCall) : bool :=
  match c with
  | glColorMask _ _ _ a => negb a
  | _ => false
  end.

Definition binds_quad_geometry (c : GLCall) : bool :=
  match c with
  | glVertexAttribPointer _ _ _ _ _ _ => true
  | _ => false
  end.

Definition enables_attribute_array (c : GLCall) : bool :=
  match c with
  | glEnableVertexAttribArray _ => true
  | _ => false
  end.

Definition enables_program (c : GLCall) : bool :=
  match c with Shader_Enable => true | _ => false end.

Definition disables_program (c : GLCall) : bool :=
  match c with Shader_Disable => true | _ => false end.

Definition submits_draw (c : GLCall) : bool :=
  match c with glDrawArrays _ _ _ => true | _ => false end.

Definition submits_strip_of_4 (c : GLCall) : bool :=
  match c with
  | glDrawArrays mode first count =>
      (mode =? GL_TRIANGLE_STRIP) && (first =? 0) && (count =? 4)
  | _ => false
  end.

(** The calls of a log that satisfy a classifier, in the order of the log. *)
Definition calls_where (p : GLCall -> bool) (l : list GLCall) : list GLCall :=
  filter (fun c => p c = true) l.

(** How many calls of a log satisfy a classifier. *)
Definition count_calls (p : GLCall -> bool) (l : list GLCall) : nat :=
  length (calls_where p l).

(** [in_order l steps]: the log [l] contains, at increasing positions, one
    call for each classifier of [steps], in the order of [steps].  The
    earliest match is taken for each step. *)
Fixpoint in_order (l : list GLCall) (steps : list (GLCall -> bool)) {struct l}
  : bool :=
  match steps, l with
  | [], _ => true
  | _ :: _, [] => false
  | p :: ps, c :: l' => if p c then in_order l' ps else in_order l' steps
  end.

(** [precedes p q l]: some call satisfying [p] comes before some call
    satisfying [q]. *)
Definition precedes (p q : GLCall -> bool) (l : list GLCall) : bool :=
  in_order l [p; q].

(** The order of the graphics operations of a draw as the prose of the
    design document lists them. *)
Definition documented_order : list (GLCall -> bool) :=
  [ sets_viewport_to_window; clears_color_buffer; disables_alpha_writes;
    binds_quad_geometry; enables_program; submits_strip_of_4;
    disables_program ].

(** The order of the statements of [Program::Draw]. *)
Definition source_order : list (GLCall -> bool) :=
  [ sets_viewport_to_window; sets_clear_color_opaque_black;
    disables_alpha_writes; clears_color_buffer; enables_program;
    binds_quad_geometry; enables_attribute_array; submits_strip_of_4;
    disables_program ].

(** ** What the graphics API does with the calls

    The parts of the OpenGL state machine that the calls of [Program.cpp]
    set and read, after the OpenGL specification.  Calls into the shader
    wrapper are opaque: they are taken to leave these parts alone. *)

Record RGBA : Type := {
  red : GLfloat;
  green : GLfloat;
  blue : GLfloat;
  alpha : GLfloat
}.

Record ColorMask : Type := {
  write_red : GLboolean;
  write_green : GLboolean;
  write_blue : GLboolean;
  write_alpha : GLboolean
}.

(** The clear colour and the colour write mask. *)
Record ColorState : Type := {
  clear_color : RGBA;
  color_mask : ColorMask
}.

(** [glClearColor] and [glColorMask] set them; no other call here does. *)
Definition color_step (s : ColorState) (c : GLCall) : ColorState :=
  match c with
  | glClearColor r g b a =>
      {| clear_color := {| red := r; green := g; blue := b; alpha := a |};
         color_mask := color_mask s |}
  | glColorMask r g b a =>
      {| clear_color := clear_color s;
         color_mask := {| write_red := r; write_green := g;
                          write_blue := b; write_alpha := a |} |}
  | _ => s
  end.

Definition color_state (l : list GLCall) (s : ColorState) : ColorState :=
  fold_left color_step l s.

(** A write to a pixel of the colour buffer stores the channels the mask
    enables and keeps the others. *)
Definition write_masked (k : ColorMask) (src dst : RGBA) : RGBA :=
  {| red := if write_red k then red src else red dst;
     green := if write_green k then green src else green dst;
     blue := if write_blue k then blue src else blue dst;
     alpha := if write_alpha k then alpha src else alpha dst |}.

(** [glClear(mask)] on a pixel of the colour buffer: with the colour bit
    set, a masked write of the clear colour. *)
Definition clear_pixel (mask : GLbitfield) (s : ColorState) (px : RGBA) : RGBA :=
  if Z.land mask GL_COLOR_BUFFER_BIT =? 0 then px
  else write_masked (color_mask s) (clear_color s) px.

(** Vertex fetch from a client array of floats: vertex [i] is [size]
    consecutive components, [stride] bytes after the start of vertex
    [i - 1]; a stride of zero means tightly packed. *)
Definition sizeof_GLfloat : Z := 4.

Definition element_step (size : GLint) (stride : GLsizei) : Z :=
  if stride =? 0 then size else stride / sizeof_GLfloat.

Definition fetch_vertex (size : GLint) (stride : GLsizei) (data : list GLfloat)
    (i : Z) : list GLfloat :=
  take (Z.to_nat size) (drop (Z.to_nat (i * element_step size stride)) data).

(** The vertices [glDrawArrays(mode, first, count)] reads through an
    attribute pointer. *)
Definition drawn_vertices (size : GLint) (stride : GLsizei) (data : list GLfloat)
    (first : GLint) (count : GLsizei) : list (list GLfloat) :=
  map (fun k => fetch_vertex size stride data (first + Z.of_nat k))
      (seq 0 (Z.to_nat count)).

(** The vertices of the draws of a log: each [glDrawArrays] reads through
    the attribute pointer set last before it. *)
Fixpoint submissions (ptr : option (GLint * GLsizei * list GLfloat))
    (l : list GLCall) : list (GLenum * list (list GLfloat)) :=
  match l with
  | [] => []
  | glVertexAttribPointer _ size _ _ stride data :: l' =>
      submissions (Some (size, stride, data)) l'
  | glDrawArrays mode first count :: l' =>
      (mode,
       match ptr with
       | Some (size, stride, data) => drawn_vertices size stride data first count
       | None => []
       end) :: submissions ptr l'
  | _ :: l' => submissions ptr l'
  end.

(** The debug-output state: the registered callback with its user
    parameter, and which messages are enabled, by source, type, id and
    severity. *)
Record DebugState : Type := {
  debug_callback : option GLDEBUGPROC;
  debug_user_param : option Z;
  debug_enabled : GLenum -> GLenum -> GLuint -> GLenum -> bool
}.

(** A filter argument of [glDebugMessageControl] selects a value when it is
    that value or [GL_DONT_CARE]. *)
Definition selects (filter value : GLenum) : bool :=
  (filter =? GL_DONT_CARE) || (filter =? value).

Definition debug_step (d : DebugState) (c : GLCall) : DebugState :=
  match c with
  | glDebugMessageCallback cb up =>
      {| debug_callback := cb; debug_user_param := up;
         debug_enabled := debug_enabled d |}
  | glDebugMessageControl source type severity count ids enabled =>
      {| debug_callback := debug_callback d;
         debug_user_param := debug_user_param d;
         debug_enabled := fun s t i v =>
           if count =? 0
           then if selects source s && selects type t && selects severity v
                then enabled else debug_enabled d s t i v
           else if selects source s && selects type t
                   && bool_decide (i ∈ default [] ids)
                then enabled else debug_enabled d s t i v |}
  | _ => d
  end.

Definition debug_state (l : list GLCall) (d : DebugState) : DebugState :=
  fold_left debug_step l d.

(** A message the driver reports. *)
Record DebugMessage : Type := {
  msg_source : GLenum;
  msg_type : GLenum;
  msg_id : GLuint;
  msg_severity : GLenum;
  msg_text : string
}.

(** The driver reports [msg]: when the message is enabled and a callback
    is registered, the callback runs on it.  The length handed over is that
    of the C string. *)
Definition report (d : DebugState) (msg : DebugMessage) (os : ostream) : ostream :=
  if debug_enabled d (msg_source msg) (msg_type msg) (msg_id msg) (msg_severity msg)
  then match debug_callback d with
       | Some cb =>
           cb (msg_source msg) (msg_type msg) (msg_id msg) (msg_severity msg)
              (Z.of_nat (String.length (c_str (msg_text msg)))) (msg_text msg)
              (debug_user_param d) os
       | None => os
       end
  else os.

(** The driver reports [msg] while the program runs on machine [m]: the
    debug state is the one the calls logged so far have built from [d0],
    the state of a fresh context, and the callback writes to [cout]. *)
Definition driver_reports (d0 : DebugState) (msg : DebugMessage) : M unit :=
  fun m => (tt, {| this := this m; configs := configs m;
                   glewExperimental := glewExperimental m;
                   gl_log := gl_log m;
                   cout := report (debug_state (gl_log m) d0) msg (cout m) |}).

(** The debug state [Load] sets up: [ETB_GL_ERROR_CALLBACK] registered and
    every message enabled. *)
Definition debug_ready (d : DebugState) : Prop :=
  debug_callback d = Some ETB_GL_ERROR_CALLBACK
  /\ forall source type id severity, debug_enabled d source type id severity = true.

(** ** Construction, and what [Load] issues *)

(** Constructing the [Program] object on a machine: [this] is the fresh
    object; the rest of the machine is as before. *)
Definition Program_ctor (shader : Shader) : M unit :=
  fun m => (tt, {| this := Program_new shader; configs := configs m;
                   glewExperimental := glewExperimental m;
                   gl_log := gl_log m; cout := cout m |}).

(** What [Program::Load] hands to the graphics API and to the shader
    wrapper, in the order of its statements; [prog] is the handle the
    wrapper returns. *)
Definition Load_calls (prog : GLuint) : list GLCall :=
  [ glewInit;
    glEnable GL_DEBUG_OUTPUT_SYNCHRONOUS;
    glDebugMessageControl GL_DONT_CARE GL_DONT_CARE GL_DONT_CARE 0 None GL_TRUE;
    glDebugMessageCallback (Some ETB_GL_ERROR_CALLBACK) None;
    Shader_LoadShader "FullscreenQuad.vert" GL_VERTEX_SHADER;
    Shader_LoadShader "FullscreenQuad.frag" GL_FRAGMENT_SHADER;
    glBindAttribLocation prog 0 "vPosition";
    Shader_Link ].

(** The four corners of the quad, as the comments of [Program::Draw] name
    them. *)
Definition quad_corners : list (list GLfloat) :=
  [ [f32 (-1); f32 1]; [f32 (-1); f32 (-1)]; [f32 1; f32 1]; [f32 1; f32 (-1)] ].

(** The corners of the axis-aligned square from [lo] to [hi] in both
    coordinates. *)
Definition square_corners (lo hi : GLfloat) : list (list GLfloat) :=
  [ [lo; lo]; [lo; hi]; [hi; lo]; [hi; hi] ].

(** A coordinate of clip space within [-1, 1]. *)
Definition in_clip_range (x : GLfloat) : bool :=
  f32_leb (f32 (-1)) x && f32_leb x (f32 1).

(** ** Sample data *)

Definition sample_shader : Shader := {| GetProgramHandle := 3 |}.

Definition sample_config : ProgramConfiguration :=
  {| Title := "untitled"; WindowWidth := 1920; WindowHeight := 1080;
     GLMajorVersion := 4; GLMinorVersion := 6 |}.

(** A machine with a freshly constructed [Program], one configuration
    record at address 1, and nothing issued or printed yet. *)
Definition sample_machine : Machine :=
  {| this := Program_new sample_shader;
     configs := {[ 1%positive := sample_config ]};
     glewExperimental := false;
     gl_log := [];
     cout := EmptyString |}.

Definition escape_pressed : InputState :=
  {| IsKeyPressed := fun k => match k with ESCAPE => true | _ => false end |}.

Definition nothing_pressed : InputState :=
  {| IsKeyPressed := fun _ => false |}.

(** A debug state with no callback and every message disabled. *)
Definition silent_debug : DebugState :=
  {| debug_callback := None; debug_user_param := None;
     debug_enabled := fun _ _ _ _ => false |}.

(** A high-severity error message, with the values of [<GL/glew.h>]:
    source API, type error, severity high. *)
Definition sample_message : DebugMessage :=
  {| msg_source := 0x8246; msg_type := 0x824C; msg_id := 1282;
     msg_severity := 0x9146; msg_text := "GL_INVALID_OPERATION" |}.

(** ** Runs of operations, read off the log *)

(** An operation that reaches [m_exit = true]: [Exit], or [Update] on an
    input with escape pressed. *)
Definition requests_exit (o : Op) : bool :=
  match o with
  | OpExit => true
  | OpUpdate inputState => IsKeyPressed inputState ESCAPE
  | _ => false
  end.

(** An operation that reaches [Unload]: [Unload] itself, or one that
    reaches [Exit]. *)
Definition reaches_Unload (o : Op) : bool :=
  match o with
  | OpUnload => true
  | _ => requests_exit o
  end.

Definition is_OpDraw (o : Op) : bool :=
  match o with OpDraw => true | _ => false end.

Definition is_OpLoad (o : Op) : bool :=
  match o with OpLoad => true | _ => false end.

(** The calls one operation issues, read off the body of its method;
    [prog] is the handle of the shader wrapper. *)
Definition calls_of (prog : GLuint) (o : Op) : list GLCall :=
  match o with
  | OpInitialize _ => []
  | OpLoad => Load_calls prog
  | OpUpdate inputState =>
      if IsKeyPressed inputState ESCAPE then [glUseProgram 0] else []
  | OpDraw => Draw_calls
  | OpReadyToExit => []
  | OpExit => [glUseProgram 0]
  | OpUnload => [glUseProgram 0]
  end.

(** How many operations of a list satisfy a test. *)
Definition count_ops (p : Op -> bool) (ops : list Op) : nat :=
  length (filter (fun o => p o = true) ops).

(** More classifiers of calls. *)
Definition sets_viewport (c : GLCall) : bool :=
  match c with glViewport _ _ _ _ => true | _ => false end.

Definition unbinds_program (c : GLCall) : bool :=
  match c with glUseProgram p => p =? 0 | _ => false end.

Definition registers_callback (c : GLCall) : bool :=
  match c with glDebugMessageCallback (Some _) _ => true | _ => false end.




Definition links_program (c : GLCall) : bool :=
  match c with Shader_Link => true | _ => false end.

Definition initialises_glew (c : GLCall) : bool :=
  match c with glewInit => true | _ => false end.

(** [writes_keep_alpha s l]: running the log [l] from the colour state
    [s], every clear of the colour buffer and every draw submission is
    issued while writes to the alpha channel are disabled. *)
Fixpoint writes_keep_alpha (s : ColorState) (l : list GLCall) : bool :=
  match l with
  | [] => true
  | c :: l' =>
      (if clears_color_buffer c || submits_draw c
       then negb (write_alpha (color_mask s)) else true)
      && writes_keep_alpha (color_step s c) l'
  end.

(** The colour state every [Draw] leaves. *)
Definition color_after_Draw : ColorState :=
  {| clear_color := {| red := f32 0; green := f32 0; blue := f32 0;
                       alpha := f32 1 |};
     color_mask := {| write_red := true; write_green := true;
                      write_blue := true; write_alpha := false |} |}.

(** The driver reports a list of messages, first to last. *)
Fixpoint driver_reports_all (d0 : DebugState) (msgs : list DebugMessage)
  : M unit :=
  match msgs with
  | [] => mret tt
  | msg :: rest => driver_reports d0 msg;; driver_reports_all d0 rest
  end.

(** One line per message: the text of its C string and a newline. *)
Fixpoint message_lines (msgs : list DebugMessage) : string :=
  match msgs with
  | [] => EmptyString
  | msg :: rest =>
      c_str (msg_text msg) +:+ String "010"%char (message_lines rest)
  end.

(** The configuration record every [Initialize] leaves. *)
Definition initial_configuration : ProgramConfiguration :=
  {| Title := "Planetarium Warper"; WindowWidth := WINDOW_WIDTH;
     WindowHeight := WINDOW_HEIGHT; GLMajorVersion := 2; GLMinorVersion := 0 |}.

(** An input with escape and another key pressed, and one with only the
    other key. *)
Definition escape_and_more : InputState :=
  {| IsKeyPressed := fun _ => true |}.

Definition only_other_keys : InputState :=
  {| IsKeyPressed := fun k => match k with ESCAPE => false | _ => true end |}.

(** [Initialize] on the record at [a]. *)
Definition initialises (a : addr) (o : Op) : bool :=
  match o with OpInitialize b => Pos.eqb b a | _ => false end.

(** An operation whose method returns without a call or an assignment:
    [ReadyToExit], and [Update] on an input without escape. *)
Definition is_idle (o : Op) : bool :=
  match o with
  | OpReadyToExit => true
  | OpUpdate inputState => negb (IsKeyPressed inputState ESCAPE)
  | _ => false
  end.

(** * Properties *)

(** ** The state monad *)

Lemma exec_bind {A B} (c : M A) (k : A -> M B) (m : Machine) :
  exec (c ≫= k) m = exec (k (eval c m)) (exec c m).
Proof.
  unfold exec, eval, mbind, M_bind. destruct (c m) as [a m']. reflexivity.
Qed.

Lemma eval_bind {A B} (c : M A) (k : A -> M B) (m : Machine) :
  eval (c ≫= k) m = eval (k (eval c m)) (exec c m).
Proof.
  unfold exec, eval, mbind, M_bind. destruct (c m) as [a m']. reflexivity.
Qed.

Lemma exec_ret {A} (a : A) (m : Machine) : exec (mret a) m = m.
Proof. reflexivity. Qed.

(** ** What each method touches *)

Lemma call_log (c : GLCall) (m : Machine) :
  gl_log (exec (call c) m) = gl_log m ++ [c].
Proof. reflexivity. Qed.

Lemma call_this (c : GLCall) (m : Machine) : this (exec (call c) m) = this m.
Proof. reflexivity. Qed.

Lemma shader_GetProgramHandle_exec (m : Machine) :
  exec shader_GetProgramHandle m = m.
Proof. reflexivity. Qed.

Lemma shader_GetProgramHandle_eval (m : Machine) :
  eval shader_GetProgramHandle m = GetProgramHandle (m_shader (this m)).
Proof. reflexivity. Qed.

Lemma set_glewExperimental_log (b : GLboolean) (m : Machine) :
  gl_log (exec (set_glewExperimental b) m) = gl_log m.
Proof. reflexivity. Qed.

Lemma set_glewExperimental_this (b : GLboolean) (m : Machine) :
  this (exec (set_glewExperimental b) m) = this m.
Proof. reflexivity. Qed.

Create Rewrite HintDb machine.
#[local] Hint Rewrite @exec_bind @exec_ret call_log call_this
  shader_GetProgramHandle_exec shader_GetProgramHandle_eval
  set_glewExperimental_log set_glewExperimental_this : machine.

Section Frames.
Variable m : Machine.

Lemma Unload_this : this (exec Unload m) = this m.
Proof. reflexivity. Qed.

Lemma Unload_log : gl_log (exec Unload m) = gl_log m ++ [glUseProgram 0].
Proof. reflexivity. Qed.

Lemma Exit_flag : m_exit (this (exec Exit m)) = true.
Proof. reflexivity. Qed.

Lemma Exit_shader : m_shader (this (exec Exit m)) = m_shader (this m).
Proof. reflexivity. Qed.

Lemma Exit_log : gl_log (exec Exit m) = gl_log m ++ [glUseProgram 0].
Proof. reflexivity. Qed.

Lemma Draw_this : this (exec Draw m) = this m.
Proof. reflexivity. Qed.

Lemma Draw_log : gl_log (exec Draw m) = gl_log m ++ Draw_calls.
Proof.
  unfold Draw, Draw_calls. autorewrite with machine.
  repeat rewrite <- app_assoc. reflexivity.
Qed.

Lemma Load_this : this (exec Load m) = this m.
Proof. reflexivity. Qed.

Lemma Initialize_this (config : addr) : this (exec (Initialize config) m) = this m.
Proof. reflexivity. Qed.

Lemma Update_flag (inputState : InputState) :
  m_exit (this (exec (Update inputState) m))
  = IsKeyPressed inputState ESCAPE || m_exit (this m).
Proof.
  unfold Update. destruct (IsKeyPressed inputState ESCAPE); reflexivity.
Qed.

Lemma ReadyToExit_exec : exec ReadyToExit m = m.
Proof. reflexivity. Qed.

Lemma ReadyToExit_eval : eval ReadyToExit m = m_exit (this m).
Proof. reflexivity. Qed.
End Frames.

Lemma issued_Draw (m : Machine) : issued Draw m = Draw_calls.
Proof.
  unfold issued. rewrite Draw_log. apply drop_app_length.
Qed.

(** One operation never takes the flag from true to false. *)
Lemma step_keeps_true (o : Op) (m : Machine) :
  m_exit (this m) = true -> m_exit (this (exec (step o) m)) = true.
Proof.
  intros Ht. destruct o as [config| |inputState| | | |]; cbn [step].
  - rewrite Initialize_this. exact Ht.
  - rewrite Load_this. exact Ht.
  - rewrite Update_flag, Ht. apply orb_true_r.
  - rewrite Draw_this. exact Ht.
  - exact Ht.
  - apply Exit_flag.
  - rewrite Unload_this. exact Ht.
Qed.

Lemma run_cons (o : Op) (ops : list Op) (m : Machine) :
  exec (run (o :: ops)) m = exec (run ops) (exec (step o) m).
Proof. cbn [run]. rewrite exec_bind. reflexivity. Qed.

Lemma run_keeps_true (ops : list Op) :
  forall m, m_exit (this m) = true -> m_exit (this (exec (run ops) m)) = true.
Proof.
  induction ops as [|o ops IH]; intros m Ht.
  - exact Ht.
  - rewrite run_cons. apply IH, step_keeps_true, Ht.
Qed.

(** From a true flag on, the history is constantly true. *)
Lemma flag_history_true (ops : list Op) :
  forall m, m_exit (this m) = true ->
    flag_history ops m = replicate (S (length ops)) true.
Proof.
  induction ops as [|o ops IH]; intros m Ht; cbn [flag_history length replicate].
  - rewrite Ht. reflexivity.
  - rewrite Ht. f_equal. apply IH, step_keeps_true, Ht.
Qed.

Lemma flag_history_shape (ops : list Op) :
  forall m, exists n k : nat,
    flag_history ops m = replicate n false ++ replicate k true.
Proof.
  induction ops as [|o ops IH]; intros m.
  - cbn [flag_history]. destruct (m_exit (this m)).
    + exists 0%nat, 1%nat. reflexivity.
    + exists 1%nat, 0%nat. reflexivity.
  - destruct (m_exit (this m)) eqn:Hm.
    + exists 0%nat, (S (length (o :: ops))).
      apply flag_history_true, Hm.
    + destruct (IH (exec (step o) m)) as (n & k & Hnk).
      exists (S n), k. cbn [flag_history]. rewrite Hm, Hnk. reflexivity.
Qed.

Lemma Load_log (m : Machine) :
  gl_log (exec Load m) = gl_log m ++ Load_calls (GetProgramHandle (m_shader (this m))).
Proof.
  unfold Load, Load_calls. autorewrite with machine.
  repeat rewrite <- app_assoc. reflexivity.
Qed.


(** ** [in_order] finds a subsequence exactly when there is one *)

Lemma in_order_sound (l : list GLCall) :
  forall steps, in_order l steps = true ->
    exists l', sublist l' l /\ Forall2 (fun p c => p c = true) steps l'.
Proof.
  induction l as [|c l IH]; intros [|p ps] H; cbn in H.
  - exists []. split; constructor.
  - discriminate.
  - exists []. split; [apply sublist_nil_l | constructor].
  - destruct (p c) eqn:Hp.
    + destruct (IH ps H) as (l' & Hsub & Hall).
      exists (c :: l'). split; [apply sublist_skip, Hsub | constructor; assumption].
    + destruct (IH (p :: ps) H) as (l' & Hsub & Hall).
      exists l'. split; [apply sublist_cons, Hsub | exact Hall].
Qed.

Lemma in_order_complete (l : list GLCall) :
  forall steps l', sublist l' l -> Forall2 (fun p c => p c = true) steps l' ->
    in_order l steps = true.
Proof.
  induction l as [|c l IH]; intros steps l' Hsub Hall.
  - apply sublist_nil_r in Hsub. subst l'.
    inversion Hall; subst. reflexivity.
  - destruct Hall as [|p c' ps l'' Hp Hall]; [reflexivity|].
    cbn [in_order]. destruct (p c) eqn:Hpc.
    + apply IH with (l' := l''); [|exact Hall].
      inversion Hsub; subst; [assumption|].
      etransitivity; [apply sublist_cons, reflexivity | eassumption].
    + inversion Hsub; subst; [congruence|].
      apply IH with (l' := c' :: l''); [assumption | constructor; assumption].
Qed.

(** ** The configuration store under [Initialize] *)

Lemma on_config_configs (config : addr)
    (f : ProgramConfiguration -> ProgramConfiguration) (m : Machine) :
  configs (exec (on_config config f) m) = alter f config (configs m).
Proof. reflexivity. Qed.

Lemma Initialize_configs (config : addr) (m : Machine) :
  configs (exec (Initialize config) m)
  = alter (fun c => cfg_SetGLMinorVersion 0
                      (cfg_SetGLMajorVersion 2
                        (cfg_SetWindowHeight WINDOW_HEIGHT
                          (cfg_SetWindowWidth WINDOW_WIDTH
                            (cfg_SetTitle "Planetarium Warper" c)))))
          config (configs m).
Proof.
  unfold Initialize, SetTitle, SetWindowWidth, SetWindowHeight,
    SetGLMajorVersion, SetGLMinorVersion.
  rewrite !exec_bind, !on_config_configs, !alter_alter_eq.
  reflexivity.
Qed.

(** ** The literals of [Program::Draw] as binary32 data *)

Lemma f32_literals :
  f32 0 = S754_zero false
  /\ f32 1 = S754_finite false 8388608 (-23)
  /\ f32 (-1) = S754_finite true 8388608 (-23)
  /\ valid_binary f32_prec f32_emax (f32 0) = true
  /\ valid_binary f32_prec f32_emax (f32 1) = true
  /\ valid_binary f32_prec f32_emax (f32 (-1)) = true.
Proof. repeat split; vm_compute; reflexivity. Qed.

(** * The claims *)

(** C1. For every input state and every prior value of the exit flag,
    after [Update(inputState)] the value [ReadyToExit()] returns is true
    exactly when escape is reported pressed or the flag was already true.
    In particular [Update] with escape pressed makes it true, and [Update]
    with escape not pressed leaves a false flag false. *)
Theorem Update_sets_flag_iff_escape (inputState : InputState) (m : Machine) :
  (eval ReadyToExit (exec (Update inputState) m) = true
     <-> IsKeyPressed inputState ESCAPE = true \/ eval ReadyToExit m = true)
  /\ (IsKeyPressed inputState ESCAPE = true ->
        eval ReadyToExit (exec (Update inputState) m) = true)
  /\ (IsKeyPressed inputState ESCAPE = false -> eval ReadyToExit m = false ->
        eval ReadyToExit (exec (Update inputState) m) = false).
Proof.
  rewrite !ReadyToExit_eval, Update_flag.
  split; [apply orb_true_iff|].
  split; [intros -> | intros -> ->]; reflexivity.
Qed.

Lemma Update_sets_flag_iff_escape_witness :
  eval ReadyToExit (exec (Update escape_pressed) sample_machine) = true
  /\ eval ReadyToExit (exec (Update nothing_pressed) sample_machine) = false.
Proof.
  split.
  - apply (proj1 (proj2 (Update_sets_flag_iff_escape escape_pressed sample_machine))).
    reflexivity.
  - apply (proj2 (proj2 (Update_sets_flag_iff_escape nothing_pressed sample_machine)));
      reflexivity.
Defined.

(** C2. For every configuration record, whatever it held before, after
    [Initialize(config)] the record holds exactly title "Planetarium
    Warper", window width 512, window height 512, GL major version 2 and GL
    minor version 0.  The values are written in place: the record the
    reference refers to is the one that changes, every other record is as
    before, and so are the [Program] object, the call log and standard
    output. *)
Theorem Initialize_writes_constants
    (config : addr) (c : ProgramConfiguration) (m : Machine) :
  configs m !! config = Some c ->
  configs (exec (Initialize config) m) !! config
    = Some {| Title := "Planetarium Warper"; WindowWidth := 512;
              WindowHeight := 512; GLMajorVersion := 2; GLMinorVersion := 0 |}
  /\ (forall other : addr, other <> config ->
        configs (exec (Initialize config) m) !! other = configs m !! other)
  /\ this (exec (Initialize config) m) = this m
  /\ gl_log (exec (Initialize config) m) = gl_log m
  /\ cout (exec (Initialize config) m) = cout m.
Proof.
  intros Hc. rewrite Initialize_configs. split; [|split].
  - rewrite lookup_alter_eq, Hc. reflexivity.
  - intros other Hne. apply lookup_alter_ne. congruence.
  - repeat split.
Qed.

Lemma Initialize_writes_constants_witness :
  configs sample_machine !! 1%positive = Some sample_config
  /\ configs (exec (Initialize 1%positive) sample_machine) !! 1%positive
     = Some {| Title := "Planetarium Warper"; WindowWidth := 512;
               WindowHeight := 512; GLMajorVersion := 2; GLMinorVersion := 0 |}.
Proof.
  split.
  - reflexivity.
  - apply (Initialize_writes_constants 1%positive sample_config sample_machine).
    reflexivity.
Defined.

(** C8. Immediately after a [Program] is constructed, before any other
    operation is called on it, [ReadyToExit()] returns false. *)
Theorem ReadyToExit_after_construction (shader : Shader) (m : Machine) :
  m_exit (this (exec (Program_ctor shader) m)) = false
  /\ ReadyToExit (exec (Program_ctor shader) m)
     = (false, exec (Program_ctor shader) m).
Proof.
  split.
  - reflexivity.
  - unfold ReadyToExit. f_equal.
Qed.

(** C9. [ReadyToExit()] is a pure query: it returns the current value of
    the exit flag and leaves the whole machine unchanged, so two consecutive
    calls return the same value and the state after them is the state
    before. *)
Theorem ReadyToExit_pure_query (m : Machine) :
  ReadyToExit m = (m_exit (this m), m)
  /\ eval ReadyToExit (exec ReadyToExit m) = eval ReadyToExit m
  /\ exec ReadyToExit (exec ReadyToExit m) = m.
Proof. repeat split. Qed.

(** C6. [Exit()] sets the exit flag to true and then calls [Unload()]: the
    machine it leaves is the one [Unload] leaves when run on the machine
    with the flag set.  Calling [Exit()] twice in a row returns normally,
    leaves [ReadyToExit()] true, and leaves the [Program] object as one call
    does. *)
Theorem Exit_sets_flag_then_unloads (m : Machine) :
  exec Exit m = exec Unload (exec (set_m_exit true) m)
  /\ m_exit (this (exec (set_m_exit true) m)) = true
  /\ issued Exit m = [glUseProgram 0]
  /\ eval ReadyToExit (exec Exit m) = true
  /\ (Exit;; Exit) m = (tt, exec Exit (exec Exit m))
  /\ eval ReadyToExit (exec Exit (exec Exit m)) = true
  /\ this (exec Exit (exec Exit m)) = this (exec Exit m).
Proof.
  repeat split.
  unfold issued. rewrite Exit_log. apply drop_app_length.
Qed.

(** C5. The exit flag is monotone.  It starts false; one operation never
    takes it from true to false, and neither does any sequence of
    operations; along every run the flag is false for some steps and then
    true for the rest, so it changes at most once, from false to true. *)
Theorem exit_flag_monotone :
  (forall shader, m_exit (Program_new shader) = false)
  /\ (forall (o : Op) (m : Machine),
        m_exit (this m) = true -> m_exit (this (exec (step o) m)) = true)
  /\ (forall (ops : list Op) (m : Machine),
        m_exit (this m) = true -> m_exit (this (exec (run ops) m)) = true)
  /\ (forall (ops : list Op) (m : Machine), exists n k : nat,
        flag_history ops m = replicate n false ++ replicate k true).
Proof.
  split; [reflexivity|].
  split; [exact step_keeps_true|].
  split; [exact run_keeps_true | exact flag_history_shape].
Qed.

Lemma exit_flag_monotone_witness :
  m_exit (this (exec Exit sample_machine)) = true
  /\ m_exit (this (exec (run [OpDraw; OpUpdate nothing_pressed;
                              OpInitialize 1%positive; OpLoad; OpUnload])
                        (exec Exit sample_machine))) = true.
Proof.
  split; [reflexivity|].
  apply (proj1 (proj2 (proj2 exit_flag_monotone))). reflexivity.
Defined.

(** C3, as the code has it.  Every call to [Draw()] issues, in this order:
    the viewport set to the fixed window size, the clear colour set to
    opaque black, writes to the alpha channel disabled, the colour buffer
    cleared, the shader program enabled, the quad geometry bound to
    attribute 0 and that attribute array enabled, the 4-vertex
    triangle-strip draw, the program disabled.  In particular the disabling
    of alpha-channel writes precedes the clear, and the enabling of the
    program precedes the binding of the geometry. *)
Theorem Draw_issues_in_source_order (m : Machine) :
  gl_log (exec Draw m)
  = gl_log m ++
    [ glViewport 0 0 512 512;
      glClearColor (f32 0) (f32 0) (f32 0) (f32 1);
      glColorMask true true true false;
      glClear GL_COLOR_BUFFER_BIT;
      Shader_Enable;
      glVertexAttribPointer 0 2 GL_FLOAT false 0 quad;
      glEnableVertexAttribArray 0;
      glDrawArrays GL_TRIANGLE_STRIP 0 4;
      Shader_Disable ]
  /\ in_order (issued Draw m) source_order = true
  /\ length (issued Draw m) = length source_order
  /\ precedes disables_alpha_writes clears_color_buffer (issued Draw m) = true
  /\ precedes clears_color_buffer disables_alpha_writes (issued Draw m) = false
  /\ precedes enables_program binds_quad_geometry (issued Draw m) = true
  /\ precedes binds_quad_geometry enables_program (issued Draw m) = false.
Proof.
  rewrite issued_Draw. split; [apply Draw_log|].
  repeat split; vm_compute; reflexivity.
Qed.

(** C3, as stated, fails: in the calls of a draw, no clear of the colour
    buffer precedes the disabling of alpha-channel writes, and no binding of
    the quad geometry precedes the enabling of the program, so the calls do
    not follow the documented order. *)
Lemma Draw_documented_order_fails :
  in_order (issued Draw sample_machine) documented_order = false
  /\ precedes clears_color_buffer disables_alpha_writes
       (issued Draw sample_machine) = false
  /\ precedes binds_quad_geometry enables_program
       (issued Draw sample_machine) = false.
Proof. rewrite issued_Draw. repeat split; vm_compute; reflexivity. Qed.

(** C4. Every call to [Draw()] issues exactly one clear of the colour
    buffer and exactly one draw submission.  The submission is a triangle
    strip of 4 vertices starting at vertex 0; it reads 2-component float
    positions with zero stride from [quad], which gives the corners
    (-1,1), (-1,-1), (1,1), (1,-1): the four corners of the square
    [-1,1] x [-1,1], every coordinate within the clip range. *)
Theorem Draw_one_clear_one_strip
    (m : Machine) (ptr : option (GLint * GLsizei * list GLfloat)) :
  count_calls clears_color_buffer (issued Draw m) = 1%nat
  /\ count_calls submits_draw (issued Draw m) = 1%nat
  /\ calls_where submits_draw (issued Draw m)
     = [glDrawArrays GL_TRIANGLE_STRIP 0 4]
  /\ calls_where binds_quad_geometry (issued Draw m)
     = [glVertexAttribPointer 0 2 GL_FLOAT false 0 quad]
  /\ submissions ptr (issued Draw m)
     = [(GL_TRIANGLE_STRIP,
         [ [f32 (-1); f32 1]; [f32 (-1); f32 (-1)];
           [f32 1; f32 1]; [f32 1; f32 (-1)] ])]
  /\ Permutation quad_corners (square_corners (f32 (-1)) (f32 1))
  /\ Forall (Forall (fun x => in_clip_range x = true)) quad_corners.
Proof.
  rewrite issued_Draw. repeat split.
  - unfold quad_corners, square_corners.
    etransitivity; [apply perm_swap|].
    do 2 apply perm_skip. apply perm_swap.
  - unfold quad_corners. repeat constructor.
Qed.

(** ** The debug state after [Load] *)

Lemma debug_state_app (l1 l2 : list GLCall) (d : DebugState) :
  debug_state (l1 ++ l2) d = debug_state l2 (debug_state l1 d).
Proof. apply fold_left_app. Qed.

Lemma debug_ready_Load_calls (prog : GLuint) (d : DebugState) :
  debug_ready (debug_state (Load_calls prog) d).
Proof. split; reflexivity. Qed.

(** No operation after [Load] unregisters the callback or disables a
    message: [Load] is the only method that issues debug calls. *)
Lemma debug_ready_step (o : Op) (m : Machine) (d0 : DebugState) :
  debug_ready (debug_state (gl_log m) d0) ->
  debug_ready (debug_state (gl_log (exec (step o) m)) d0).
Proof.
  intros Hd. destruct o as [config| |inputState| | | |]; cbn [step].
  - exact Hd.
  - rewrite Load_log, debug_state_app. apply debug_ready_Load_calls.
  - unfold Update. destruct (IsKeyPressed inputState ESCAPE).
    + rewrite Exit_log, debug_state_app. exact Hd.
    + exact Hd.
  - rewrite Draw_log, debug_state_app. exact Hd.
  - exact Hd.
  - rewrite Exit_log, debug_state_app. exact Hd.
  - rewrite Unload_log, debug_state_app. exact Hd.
Qed.

Lemma debug_ready_run (ops : list Op) (d0 : DebugState) :
  forall m, debug_ready (debug_state (gl_log m) d0) ->
    debug_ready (debug_state (gl_log (exec (run ops) m)) d0).
Proof.
  induction ops as [|o ops IH]; intros m Hd.
  - exact Hd.
  - rewrite run_cons. apply IH, debug_ready_step, Hd.
Qed.

Lemma debug_ready_after_Load (m : Machine) (d0 : DebugState) :
  debug_ready (debug_state (gl_log (exec Load m)) d0).
Proof. rewrite Load_log, debug_state_app. apply debug_ready_Load_calls. Qed.

Lemma report_ready (d : DebugState) (msg : DebugMessage) (os : ostream) :
  debug_ready d ->
  report d msg os
  = (os +:+ c_str (msg_text msg)) +:+ String "010"%char EmptyString.
Proof.
  intros [Hcb Hen]. unfold report. rewrite Hen, Hcb. reflexivity.
Qed.

Lemma c_str_NUL_free (s : string) : NUL_free s = true -> c_str s = s.
Proof.
  induction s as [|c s IH]; intros Hs; [reflexivity|].
  cbn [NUL_free c_str] in *. apply andb_true_iff in Hs as [Hc Hs].
  apply negb_true_iff in Hc. rewrite Hc, (IH Hs). reflexivity.
Qed.

(** A buffer is read up to its first NUL, whatever follows it. *)
Lemma c_str_stops_at_NUL (a b : string) :
  NUL_free a = true -> c_str (a +:+ String "000"%char b) = a.
Proof.
  induction a as [|c a IH]; intros Ha; [reflexivity|].
  cbn [NUL_free] in Ha. apply andb_true_iff in Ha as [Hc Ha].
  apply negb_true_iff in Hc.
  change (c_str (String c (a +:+ String "000"%char b)) = String c a).
  cbn [c_str]. rewrite Hc, (IH Ha). reflexivity.
Qed.

(** C7, as the code has it.  For every driver-reported debug message, of
    any severity, source or type, the callback [Load] registers writes the
    message text followed by a newline to standard output, with no severity
    tag or other formatting.  The text is read as a C string: it ends at the
    first NUL of the buffer, and a buffer without a NUL is written in full.
    What is written depends on no other parameter of the callback, the
    length included.  This holds at any point after [Load], whatever
    operations have run since and whatever the debug state was before; the
    report leaves the [Program] object and the call log as they were, and
    the callback returns for every input. *)
Theorem debug_callback_prints_message_line
    (m : Machine) (d0 : DebugState) (ops : list Op) (msg : DebugMessage) :
  (forall source type id severity length userParam (os : ostream),
     ETB_GL_ERROR_CALLBACK source type id severity length (msg_text msg)
       userParam os
     = (os +:+ c_str (msg_text msg)) +:+ String "010"%char EmptyString)
  /\ (NUL_free (msg_text msg) = true ->
      forall source type id severity length userParam (os : ostream),
        ETB_GL_ERROR_CALLBACK source type id severity length (msg_text msg)
          userParam os
        = (os +:+ msg_text msg) +:+ String "010"%char EmptyString)
  /\ debug_callback (debug_state (gl_log (exec (run ops) (exec Load m))) d0)
     = Some ETB_GL_ERROR_CALLBACK
  /\ debug_enabled (debug_state (gl_log (exec (run ops) (exec Load m))) d0)
       (msg_source msg) (msg_type msg) (msg_id msg) (msg_severity msg) = true
  /\ cout (exec (driver_reports d0 msg) (exec (run ops) (exec Load m)))
     = (cout (exec (run ops) (exec Load m)) +:+ c_str (msg_text msg))
       +:+ String "010"%char EmptyString
  /\ this (exec (driver_reports d0 msg) (exec (run ops) (exec Load m)))
     = this (exec (run ops) (exec Load m))
  /\ gl_log (exec (driver_reports d0 msg) (exec (run ops) (exec Load m)))
     = gl_log (exec (run ops) (exec Load m)).
Proof.
  pose proof (debug_ready_run ops d0 _ (debug_ready_after_Load m d0)) as Hd.
  split; [reflexivity|].
  split.
  { intros Hfree source type id severity length userParam os.
    unfold ETB_GL_ERROR_CALLBACK, put.
    rewrite (c_str_NUL_free _ Hfree). reflexivity. }
  split; [apply Hd|]. split; [apply Hd|].
  split; [|split; reflexivity].
  apply (report_ready _ msg _ Hd).
Qed.

Lemma debug_callback_prints_message_line_witness :
  NUL_free (msg_text sample_message) = true
  /\ ETB_GL_ERROR_CALLBACK (msg_source sample_message) (msg_type sample_message)
       (msg_id sample_message) (msg_severity sample_message) 20
       (msg_text sample_message) None EmptyString
     = (EmptyString +:+ msg_text sample_message)
       +:+ String "010"%char EmptyString.
Proof.
  split; [reflexivity|].
  apply (proj1 (proj2 (debug_callback_prints_message_line
                         sample_machine silent_debug [] sample_message))).
  reflexivity.
Defined.

(** C7, as stated, fails: on a reported message the text added to standard
    output is not the message text alone. *)
Lemma debug_callback_output_not_text_alone :
  cout (exec (driver_reports silent_debug sample_message)
          (exec Load sample_machine))
  <> cout (exec Load sample_machine) +:+ msg_text sample_message.
Proof. vm_compute. discriminate. Qed.

(** C10. In every [Draw()] call the colour mask that disables
    alpha-channel writes is issued before the clear.  The clear is the only
    one of the draw; when it runs the mask lets red, green and blue through
    and holds alpha back, and the clear colour is (0, 0, 0, 1); so the clear
    writes zero to red, green and blue and leaves the alpha of every pixel
    as it was. *)
Theorem Draw_clear_keeps_alpha (m : Machine) (s : ColorState) (px : RGBA) :
  exists pre post : list GLCall,
    issued Draw m = pre ++ glClear GL_COLOR_BUFFER_BIT :: post
    /\ glColorMask true true true false ∈ pre
    /\ count_calls clears_color_buffer pre = 0%nat
    /\ count_calls clears_color_buffer post = 0%nat
    /\ precedes disables_alpha_writes clears_color_buffer (issued Draw m) = true
    /\ color_mask (color_state pre s)
       = {| write_red := true; write_green := true; write_blue := true;
            write_alpha := false |}
    /\ clear_color (color_state pre s)
       = {| red := f32 0; green := f32 0; blue := f32 0; alpha := f32 1 |}
    /\ clear_pixel GL_COLOR_BUFFER_BIT (color_state pre s) px
       = {| red := f32 0; green := f32 0; blue := f32 0; alpha := alpha px |}.
Proof.
  rewrite issued_Draw.
  exists (take 3 Draw_calls), (drop 4 Draw_calls).
  split; [reflexivity|].
  split; [cbn [take Draw_calls]; set_solver|].
  repeat split.
Qed.

(** ** The model on concrete inputs *)

Example in_order_iff_subsequence (l : list GLCall) (steps : list (GLCall -> bool)) :
  in_order l steps = true
  <-> exists l', sublist l' l /\ Forall2 (fun p c => p c = true) steps l'.
Proof.
  split.
  - apply in_order_sound.
  - intros (l' & Hsub & Hall). eapply in_order_complete; eassumption.
Qed.

Example frame_after_escape :
  flag_history [OpLoad; OpUpdate nothing_pressed; OpDraw;
                OpUpdate escape_pressed; OpDraw; OpUpdate nothing_pressed]
    sample_machine
  = [false; false; false; false; true; true; true].
Proof. reflexivity. Qed.

Example escape_unbinds_program :
  issued (Update escape_pressed) sample_machine = [glUseProgram 0]
  /\ issued (Update nothing_pressed) sample_machine = [].
Proof. split; reflexivity. Qed.

Example sample_message_printed :
  cout (exec (Load;; Draw;; driver_reports silent_debug sample_message)
          sample_machine)
  = "GL_INVALID_OPERATION" +:+ String "010"%char EmptyString.
Proof. reflexivity. Qed.

Example message_ends_at_NUL :
  ETB_GL_ERROR_CALLBACK 0 0 0 0 5
    (String "A" (String "B" (String "000" (String "C" (String "D" EmptyString)))))
    None EmptyString
  = String "A" (String "B" (String "010" EmptyString)).
Proof. reflexivity. Qed.

Example silent_before_Load :
  report silent_debug sample_message EmptyString = EmptyString.
Proof. reflexivity. Qed.

Example second_vertex_of_quad :
  fetch_vertex 2 0 quad 1 = [f32 (-1); f32 (-1)]
  /\ fetch_vertex 2 8 quad 3 = [f32 1; f32 (-1)].
Proof. split; reflexivity. Qed.

Example clear_with_open_mask_writes_alpha (px : RGBA) :
  alpha (clear_pixel GL_COLOR_BUFFER_BIT
           (color_state [glClearColor (f32 0) (f32 0) (f32 0) (f32 1)]
              {| clear_color := px;
                 color_mask := {| write_red := true; write_green := true;
                                  write_blue := true; write_alpha := true |} |})
           px)
  = f32 1.
Proof. reflexivity. Qed.

(** * Further properties of the lifecycle methods *)

(** ** One operation at a time *)

Lemma step_shader (o : Op) (m : Machine) :
  m_shader (this (exec (step o) m)) = m_shader (this m).
Proof.
  destruct o as [config| |inputState| | | |]; try reflexivity.
  cbn [step]. unfold Update. destruct (IsKeyPressed inputState ESCAPE); reflexivity.
Qed.

Lemma step_flag (o : Op) (m : Machine) :
  m_exit (this (exec (step o) m)) = m_exit (this m) || requests_exit o.
Proof.
  destruct o as [config| |inputState| | | |]; cbn [step requests_exit];
    rewrite ?orb_false_r, ?orb_true_r; try reflexivity.
  rewrite Update_flag. apply orb_comm.
Qed.

Lemma step_log (o : Op) (m : Machine) :
  gl_log (exec (step o) m)
  = gl_log m ++ calls_of (GetProgramHandle (m_shader (this m))) o.
Proof.
  destruct o as [config| |inputState| | | |]; cbn [step calls_of].
  - symmetry. apply app_nil_r.
  - apply Load_log.
  - unfold Update. destruct (IsKeyPressed inputState ESCAPE).
    + apply Exit_log.
    + symmetry. apply app_nil_r.
  - apply Draw_log.
  - symmetry. apply app_nil_r.
  - apply Exit_log.
  - apply Unload_log.
Qed.

Lemma run_shader (ops : list Op) :
  forall m, m_shader (this (exec (run ops) m)) = m_shader (this m).
Proof.
  induction ops as [|o ops IH]; intros m.
  - reflexivity.
  - rewrite run_cons, IH. apply step_shader.
Qed.

Lemma run_log (ops : list Op) :
  forall m, gl_log (exec (run ops) m)
            = gl_log m ++ flat_map (calls_of (GetProgramHandle (m_shader (this m)))) ops.
Proof.
  induction ops as [|o ops IH]; intros m.
  - symmetry. apply app_nil_r.
  - rewrite run_cons, IH, step_shader, step_log. cbn [flat_map].
    symmetry. apply app_assoc.
Qed.

Lemma run_app (ops1 ops2 : list Op) (m : Machine) :
  exec (run (ops1 ++ ops2)) m = exec (run ops2) (exec (run ops1) m).
Proof.
  revert m. induction ops1 as [|o ops1 IH]; intros m.
  - reflexivity.
  - cbn [app]. rewrite !run_cons. apply IH.
Qed.

(** ** Counting in a concatenated log *)

Lemma count_calls_app (p : GLCall -> bool) (l1 l2 : list GLCall) :
  count_calls p (l1 ++ l2) = (count_calls p l1 + count_calls p l2)%nat.
Proof.
  unfold count_calls, calls_where. rewrite filter_app. apply length_app.
Qed.

Lemma count_ops_cons (q : Op -> bool) (o : Op) (ops : list Op) :
  count_ops q (o :: ops) = ((if q o then 1 else 0) + count_ops q ops)%nat.
Proof.
  unfold count_ops. rewrite filter_cons.
  destruct (q o); [rewrite decide_True by reflexivity
                  |rewrite decide_False by discriminate]; reflexivity.
Qed.

(** When each operation issues one call of a kind or none, the calls of
    that kind in a run are as many as the operations that issue one. *)
Lemma count_calls_per_operation
    (p : GLCall -> bool) (q : Op -> bool) (prog : GLuint) :
  (forall o, count_calls p (calls_of prog o) = if q o then 1%nat else 0%nat) ->
  forall ops, count_calls p (flat_map (calls_of prog) ops) = count_ops q ops.
Proof.
  intros Hone. induction ops as [|o ops IH].
  - reflexivity.
  - cbn [flat_map]. rewrite count_calls_app, count_ops_cons, Hone, IH.
    reflexivity.
Qed.

Lemma issued_run (ops : list Op) (m : Machine) :
  issued (run ops) m = flat_map (calls_of (GetProgramHandle (m_shader (this m)))) ops.
Proof.
  unfold issued. rewrite run_log. apply drop_app_length.
Qed.

(** X1. The calls a run issues are the calls of its operations, one
    operation after the other: what an operation issues depends on the
    operation alone (and on the handle of the shader wrapper), not on the
    exit flag, on the operations before it, or on the rest of the machine.
    The log before the run is kept as it is. *)
Theorem run_issues_calls_of_each_operation (ops : list Op) (m : Machine) :
  gl_log (exec (run ops) m)
  = gl_log m ++ flat_map (calls_of (GetProgramHandle (m_shader (this m)))) ops
  /\ issued (run ops) m
     = flat_map (calls_of (GetProgramHandle (m_shader (this m)))) ops
  /\ issued (run ops) (exec Exit m) = issued (run ops) m.
Proof.
  split; [apply run_log|]. split; [apply issued_run|].
  rewrite !issued_run. reflexivity.
Qed.

(** X2. After any run the exit flag is true exactly when it was true
    before or the run contains an [Exit] or an [Update] with escape pressed:
    [Initialize], [Load], [Draw], [ReadyToExit] and [Unload] never set
    it. *)
Theorem exit_flag_after_run (ops : list Op) (m : Machine) :
  eval ReadyToExit (exec (run ops) m)
  = m_exit (this m) || existsb requests_exit ops.
Proof.
  rewrite ReadyToExit_eval. revert m.
  induction ops as [|o ops IH]; intros m.
  - cbn [existsb]. rewrite orb_false_r. reflexivity.
  - rewrite run_cons, IH, step_flag. cbn [existsb]. apply eq_sym, orb_assoc.
Qed.

(** X3. In any run, clears of the colour buffer, draw submissions, and
    enablings and disablings of the shader program are each as many as the
    [Draw] operations of the run: every [Draw] clears once and draws once
    between one enable and one disable, and no other operation clears,
    draws, enables or disables. *)
Theorem one_clear_and_one_draw_per_Draw (ops : list Op) (m : Machine) :
  count_calls clears_color_buffer (issued (run ops) m) = count_ops is_OpDraw ops
  /\ count_calls submits_draw (issued (run ops) m) = count_ops is_OpDraw ops
  /\ count_calls submits_strip_of_4 (issued (run ops) m) = count_ops is_OpDraw ops
  /\ count_calls enables_program (issued (run ops) m) = count_ops is_OpDraw ops
  /\ count_calls disables_program (issued (run ops) m) = count_ops is_OpDraw ops.
Proof.
  rewrite issued_run.
  repeat split; apply count_calls_per_operation;
    intros [config| |inputState| | | |]; try reflexivity;
    cbn [calls_of]; destruct (IsKeyPressed inputState ESCAPE); reflexivity.
Qed.

(** X4. In any run the calls [glUseProgram(0)] are as many as the
    operations that reach [Unload]: each [Unload], each [Exit] and each
    [Update] with escape pressed issues one, also when the exit flag is
    already set; the debug callback is registered once per [Load] and by no
    other operation. *)
Theorem one_unbind_per_Unload (ops : list Op) (m : Machine) :
  count_calls unbinds_program (issued (run ops) m) = count_ops reaches_Unload ops
  /\ count_calls registers_callback (issued (run ops) m) = count_ops is_OpLoad ops
  /\ count_calls initialises_glew (issued (run ops) m) = count_ops is_OpLoad ops
  /\ count_calls links_program (issued (run ops) m) = count_ops is_OpLoad ops.
Proof.
  rewrite issued_run.
  repeat split; apply count_calls_per_operation;
    intros [config| |inputState| | | |]; try reflexivity;
    cbn [calls_of reaches_Unload requests_exit];
    destruct (IsKeyPressed inputState ESCAPE); reflexivity.
Qed.

(** X5. [Update] acts on the escape key alone: two inputs that agree on
    escape have the same effect, whatever other keys they report; with
    escape not pressed the whole machine is left as it was and no call is
    issued; with escape pressed [Update] does what [Exit] does. *)
Theorem Update_reads_escape_alone (i1 i2 : InputState) (m : Machine) :
  IsKeyPressed i1 ESCAPE = IsKeyPressed i2 ESCAPE ->
  Update i1 m = Update i2 m
  /\ (IsKeyPressed i1 ESCAPE = false -> Update i2 m = (tt, m))
  /\ (IsKeyPressed i1 ESCAPE = true -> Update i2 m = Exit m).
Proof.
  intros Heq. unfold Update. rewrite <- Heq.
  split; [reflexivity|]. split; intros ->; reflexivity.
Qed.

Lemma Update_reads_escape_alone_witness :
  Update only_other_keys sample_machine = (tt, sample_machine)
  /\ Update escape_and_more sample_machine = Exit sample_machine.
Proof.
  split.
  - apply (Update_reads_escape_alone nothing_pressed only_other_keys sample_machine);
      reflexivity.
  - apply (Update_reads_escape_alone escape_pressed escape_and_more sample_machine);
      reflexivity.
Defined.

(** ** The colour state along a run *)

Lemma color_state_app (l1 l2 : list GLCall) (s : ColorState) :
  color_state (l1 ++ l2) s = color_state l2 (color_state l1 s).
Proof. apply fold_left_app. Qed.

Lemma color_state_calls_of (prog : GLuint) (o : Op) (s : ColorState) :
  color_state (calls_of prog o) s = if is_OpDraw o then color_after_Draw else s.
Proof.
  destruct o as [config| |inputState| | | |]; try reflexivity.
  cbn [calls_of is_OpDraw]. destruct (IsKeyPressed inputState ESCAPE); reflexivity.
Qed.

Lemma writes_keep_alpha_app (l1 l2 : list GLCall) :
  forall s, writes_keep_alpha s (l1 ++ l2)
            = writes_keep_alpha s l1 && writes_keep_alpha (color_state l1 s) l2.
Proof.
  induction l1 as [|c l1 IH]; intros s.
  - reflexivity.
  - cbn [app writes_keep_alpha]. rewrite IH, andb_assoc. reflexivity.
Qed.

Lemma writes_keep_alpha_calls_of (prog : GLuint) (o : Op) (s : ColorState) :
  writes_keep_alpha s (calls_of prog o) = true.
Proof.
  destruct o as [config| |inputState| | | |]; try reflexivity.
  cbn [calls_of]. destruct (IsKeyPressed inputState ESCAPE); reflexivity.
Qed.

(** X6. In any run, from any colour state, every clear of the colour
    buffer and every draw submission is issued while writes to the alpha
    channel are disabled: [Draw] disables them before it clears and draws,
    and no method enables them again. *)
Theorem alpha_is_never_written (ops : list Op) (m : Machine) (s : ColorState) :
  writes_keep_alpha s (issued (run ops) m) = true.
Proof.
  rewrite issued_run. revert s.
  induction ops as [|o ops IH]; intros s.
  - reflexivity.
  - cbn [flat_map]. rewrite writes_keep_alpha_app, writes_keep_alpha_calls_of, IH.
    reflexivity.
Qed.

(** X7. Only [Draw] changes the clear colour and the colour write mask: a
    run without a [Draw] leaves them as they were, and a run with a [Draw]
    leaves the clear colour (0, 0, 0, 1) and the mask with red, green and
    blue enabled and alpha disabled, whatever they were before and whatever
    ran after the [Draw]. *)
Theorem color_state_after_run (ops : list Op) (m : Machine) (s : ColorState) :
  color_state (issued (run ops) m) s
  = if existsb is_OpDraw ops then color_after_Draw else s.
Proof.
  rewrite issued_run. revert s.
  induction ops as [|o ops IH]; intros s.
  - reflexivity.
  - cbn [flat_map existsb]. rewrite color_state_app, IH, color_state_calls_of.
    destruct (is_OpDraw o), (existsb is_OpDraw ops); reflexivity.
Qed.

(** ** The debug setup along a run *)

Lemma debug_state_calls_of (prog : GLuint) (o : Op) (d : DebugState) :
  is_OpLoad o = false -> debug_state (calls_of prog o) d = d.
Proof.
  destruct o as [config| |inputState| | | |]; intros Ho;
    try discriminate; try reflexivity.
  cbn [calls_of]. destruct (IsKeyPressed inputState ESCAPE); reflexivity.
Qed.

(** X8. Only [Load] changes the debug setup: a run without a [Load] leaves
    the registered callback and the enabled messages as they were; a run
    with a [Load] leaves [ETB_GL_ERROR_CALLBACK] registered and every
    message enabled, whatever ran after the [Load]. *)
Theorem debug_setup_after_run (ops : list Op) (m : Machine) (d : DebugState) :
  if existsb is_OpLoad ops
  then debug_ready (debug_state (issued (run ops) m) d)
  else debug_state (issued (run ops) m) d = d.
Proof.
  rewrite issued_run. revert d.
  induction ops as [|o ops IH]; intros d.
  - reflexivity.
  - cbn [flat_map existsb]. rewrite debug_state_app.
    specialize (IH (debug_state (calls_of (GetProgramHandle (m_shader (this m))) o) d)).
    destruct (existsb is_OpLoad ops).
    + rewrite orb_true_r. exact IH.
    + rewrite orb_false_r, IH. destruct (is_OpLoad o) eqn:Ho.
      * destruct o; try discriminate. apply debug_ready_Load_calls.
      * apply debug_state_calls_of, Ho.
Qed.

(** ** Messages reported one after the other *)

Lemma string_app_assoc (a b c : string) : (a +:+ b) +:+ c = a +:+ (b +:+ c).
Proof.
  induction a as [|x a IH].
  - reflexivity.
  - exact (f_equal (String x) IH).
Qed.

Lemma driver_reports_all_ready (d0 : DebugState) (msgs : list DebugMessage) :
  forall m, debug_ready (debug_state (gl_log m) d0) ->
    exec (driver_reports_all d0 msgs) m
    = {| this := this m; configs := configs m;
         glewExperimental := glewExperimental m; gl_log := gl_log m;
         cout := cout m +:+ message_lines msgs |}.
Proof.
  induction msgs as [|msg rest IH]; intros m Hd.
  - destruct m as [p cs ge log os]. cbn [driver_reports_all message_lines].
    rewrite exec_ret. cbn [cout this configs glewExperimental gl_log].
    f_equal. clear. induction os as [|x os IH];
      [reflexivity | exact (f_equal (String x) IH)].
  - cbn [driver_reports_all message_lines]. rewrite exec_bind, IH by exact Hd.
    cbn [exec driver_reports snd this configs glewExperimental gl_log cout].
    f_equal. rewrite (report_ready _ msg _ Hd), !string_app_assoc.
    reflexivity.
Qed.

(** X9. At any point after [Load], messages the driver reports one after
    the other are written to standard output one per line, in the order
    they are reported, after the text already there; each line is the text
    of the message up to the first NUL of its buffer; the reports change
    nothing else of the machine. *)
Theorem reported_messages_are_lines_in_order
    (m : Machine) (d0 : DebugState) (ops : list Op) (msgs : list DebugMessage) :
  exec (driver_reports_all d0 msgs) (exec (run ops) (exec Load m))
  = {| this := this (exec (run ops) (exec Load m));
       configs := configs (exec (run ops) (exec Load m));
       glewExperimental := glewExperimental (exec (run ops) (exec Load m));
       gl_log := gl_log (exec (run ops) (exec Load m));
       cout := cout (exec (run ops) (exec Load m)) +:+ message_lines msgs |}.
Proof.
  apply driver_reports_all_ready, debug_ready_run, debug_ready_after_Load.
Qed.

(** ** [Initialize] on the store of records *)

Lemma Initialize_exec (config : addr) (m : Machine) :
  exec (Initialize config) m
  = {| this := this m;
       configs := alter (fun _ => initial_configuration) config (configs m);
       glewExperimental := glewExperimental m;
       gl_log := gl_log m;
       cout := cout m |}.
Proof.
  destruct m as [p cs ge log os].
  unfold Initialize, SetTitle, SetWindowWidth, SetWindowHeight,
    SetGLMajorVersion, SetGLMinorVersion.
  rewrite !exec_bind.
  cbn [exec on_config snd this configs glewExperimental gl_log cout].
  f_equal. rewrite !alter_alter_eq. apply alter_ext. reflexivity.
Qed.

(** X10. [Initialize] overwrites every field, so what the record held
    before does not matter and a second call changes nothing; calls on two
    records can be made in either order; and no record appears in or
    disappears from the store. *)
Theorem Initialize_idempotent_and_commutes (a b : addr) (m : Machine) :
  exec (Initialize a) (exec (Initialize a) m) = exec (Initialize a) m
  /\ exec (Initialize a) (exec (Initialize b) m)
     = exec (Initialize b) (exec (Initialize a) m)
  /\ dom (configs (exec (Initialize a) m)) = dom (configs m)
  /\ forall c c' : ProgramConfiguration,
       configs (exec (Initialize a)
                  {| this := this m; configs := <[a := c]> (configs m);
                     glewExperimental := glewExperimental m;
                     gl_log := gl_log m; cout := cout m |})
       = configs (exec (Initialize a)
                    {| this := this m; configs := <[a := c']> (configs m);
                       glewExperimental := glewExperimental m;
                       gl_log := gl_log m; cout := cout m |}).
Proof.
  rewrite !Initialize_exec.
  cbn [this configs glewExperimental gl_log cout].
  split; [|split; [|split]].
  - f_equal. rewrite alter_alter_eq. apply alter_ext. reflexivity.
  - f_equal. destruct (decide (a = b)) as [->|Hne].
    + reflexivity.
    + apply alter_alter_ne, Hne.
  - apply dom_alter_L.
  - intros c c'. rewrite !Initialize_exec. cbn [configs].
    apply map_eq. intros k.
    rewrite !lookup_alter. destruct (decide (a = k)) as [->|Hne].
    + rewrite !lookup_insert_eq. reflexivity.
    + rewrite !lookup_insert_ne by exact Hne. reflexivity.
Qed.

(** X11. The window [Initialize] asks for and the viewport [Draw] sets
    agree: after [Initialize(config)] the width and height of the record
    are the width and height of the one viewport call of every [Draw], and
    that viewport starts at the origin. *)
Theorem viewport_matches_requested_window
    (config : addr) (c : ProgramConfiguration) (m m' : Machine) :
  configs m !! config = Some c ->
  exists c' : ProgramConfiguration,
    configs (exec (Initialize config) m) !! config = Some c'
    /\ calls_where sets_viewport (issued Draw m')
       = [glViewport 0 0 (WindowWidth c') (WindowHeight c')].
Proof.
  intros Hc. exists initial_configuration. split.
  - rewrite Initialize_exec. cbn [configs].
    rewrite lookup_alter_eq, Hc. reflexivity.
  - rewrite issued_Draw. reflexivity.
Qed.

Lemma viewport_matches_requested_window_witness :
  exists c' : ProgramConfiguration,
    configs (exec (Initialize 1%positive) sample_machine) !! 1%positive = Some c'
    /\ calls_where sets_viewport (issued Draw (exec Exit sample_machine))
       = [glViewport 0 0 (WindowWidth c') (WindowHeight c')].
Proof.
  apply (viewport_matches_requested_window 1%positive sample_config).
  reflexivity.
Defined.


(** ** The vertices a draw can read from [quad] *)

Lemma fetch_vertex_quad_inside (i : Z) :
  0 <= i < 4 -> fetch_vertex 2 0 quad i ∈ quad_corners.
Proof.
  intros Hi.
  assert (i = 0 \/ i = 1 \/ i = 2 \/ i = 3) as [->|[->|[->| ->]]] by lia.
  - apply (list_elem_of_lookup_2 _ 0%nat). reflexivity.
  - apply (list_elem_of_lookup_2 _ 1%nat). reflexivity.
  - apply (list_elem_of_lookup_2 _ 2%nat). reflexivity.
  - apply (list_elem_of_lookup_2 _ 3%nat). reflexivity.
Qed.

Lemma fetch_vertex_quad_outside (i : Z) :
  4 <= i -> fetch_vertex 2 0 quad i = [].
Proof.
  intros Hi. unfold fetch_vertex.
  change (element_step 2 0) with 2.
  rewrite drop_ge; [reflexivity|].
  change (length quad) with 8%nat. lia.
Qed.

(** X13. The draw reads inside the array: with the attribute pointer of
    [Draw] (2 components, zero stride, [quad]), a draw of [count] vertices
    from [first] fetches corners of the quad exactly when it stays within
    the first 4 vertices, which the draw of [Draw] (first 0, count 4) does;
    any draw that goes further fetches a vertex with no component in the
    array. *)
Theorem draw_reads_within_quad (first count : Z) :
  0 <= first -> 0 <= count ->
  (first + count <= 4 ->
     Forall (fun v => v ∈ quad_corners) (drawn_vertices 2 0 quad first count))
  /\ (0 < count -> 4 < first + count ->
        Exists (fun v => v = []) (drawn_vertices 2 0 quad first count)).
Proof.
  intros Hfirst Hcount. unfold drawn_vertices. split.
  - intros Hle. apply List.Forall_forall. intros v Hin.
    apply in_map_iff in Hin as (k & <- & Hk). apply in_seq in Hk.
    apply fetch_vertex_quad_inside. lia.
  - intros Hpos Hgt. apply List.Exists_exists.
    exists (fetch_vertex 2 0 quad (first + Z.of_nat (Z.to_nat count - 1))).
    split.
    + apply in_map_iff. exists (Z.to_nat count - 1)%nat.
      split; [reflexivity|]. apply in_seq. lia.
    + apply fetch_vertex_quad_outside. lia.
Qed.

Lemma draw_reads_within_quad_witness :
  Forall (fun v => v ∈ quad_corners) (drawn_vertices 2 0 quad 0 4)
  /\ Exists (fun v => v = []) (drawn_vertices 2 0 quad 0 5).
Proof.
  split.
  - apply (proj1 (draw_reads_within_quad 0 4 ltac:(lia) ltac:(lia))). lia.
  - apply (proj2 (draw_reads_within_quad 0 5 ltac:(lia) ltac:(lia))); lia.
Defined.

(** ** What a run leaves alone *)

Lemma step_glewExperimental (o : Op) (m : Machine) :
  glewExperimental (exec (step o) m) = glewExperimental m || is_OpLoad o.
Proof.
  destruct o as [config| |inputState| | | |]; cbn [step is_OpLoad];
    rewrite ?orb_false_r, ?orb_true_r; try reflexivity.
  unfold Update. destruct (IsKeyPressed inputState ESCAPE); reflexivity.
Qed.

Lemma step_configs (o : Op) (m : Machine) (a : addr) :
  configs (exec (step o) m) !! a
  = if initialises a o then (fun _ => initial_configuration) <$> configs m !! a
    else configs m !! a.
Proof.
  destruct o as [config| |inputState| | | |]; cbn [step initialises];
    try reflexivity.
  - rewrite Initialize_exec. cbn [configs]. rewrite lookup_alter.
    destruct (Pos.eqb_spec config a) as [->|Hne].
    + rewrite decide_True by reflexivity. reflexivity.
    + rewrite decide_False by exact Hne. reflexivity.
  - unfold Update. destruct (IsKeyPressed inputState ESCAPE); reflexivity.
Qed.

Lemma run_glewExperimental (ops : list Op) :
  forall m, glewExperimental (exec (run ops) m)
            = glewExperimental m || existsb is_OpLoad ops.
Proof.
  induction ops as [|o ops IH]; intros m.
  - cbn [existsb]. rewrite orb_false_r. reflexivity.
  - rewrite run_cons, IH, step_glewExperimental. cbn [existsb].
    apply eq_sym, orb_assoc.
Qed.

Lemma run_configs (ops : list Op) (a : addr) :
  forall m, configs (exec (run ops) m) !! a
            = if existsb (initialises a) ops
              then (fun _ => initial_configuration) <$> configs m !! a
              else configs m !! a.
Proof.
  induction ops as [|o ops IH]; intros m; [reflexivity|].
  rewrite run_cons, IH, step_configs. cbn [existsb].
  destruct (initialises a o), (existsb (initialises a) ops),
    (configs m !! a); reflexivity.
Qed.

(** X14. What a run never does.  No lifecycle method replaces the shader
    wrapper; [glewExperimental] is true after a run exactly when it was
    true before or the run contains a [Load]; the
    record at an address is overwritten with the fixed configuration when
    the run contains an [Initialize] on that address and is otherwise left
    as it was; no record is added or removed. *)
Theorem run_frame (ops : list Op) (m : Machine) (a : addr) :
  m_shader (this (exec (run ops) m)) = m_shader (this m)
  /\ glewExperimental (exec (run ops) m)
     = glewExperimental m || existsb is_OpLoad ops
  /\ configs (exec (run ops) m) !! a
     = (if existsb (initialises a) ops
        then (fun _ => initial_configuration) <$> configs m !! a
        else configs m !! a)
  /\ (is_Some (configs (exec (run ops) m) !! a) <-> is_Some (configs m !! a)).
Proof.
  split; [apply run_shader|].
  split; [apply run_glewExperimental|]. split; [apply run_configs|].
  rewrite run_configs. destruct (existsb (initialises a) ops); [|reflexivity].
  apply fmap_is_Some.
Qed.

(** X15. Polling is free: dropping from a run every [ReadyToExit] and
    every [Update] whose input has escape not pressed leaves the same
    machine, so the exit flag can be queried, and idle input handled, any
    number of times anywhere in a run without effect. *)
Theorem idle_operations_can_be_dropped (ops : list Op) (m : Machine) :
  exec (run ops) m = exec (run (filter (fun o => is_idle o = false) ops)) m.
Proof.
  revert m. induction ops as [|o ops IH]; intros m; [reflexivity|].
  rewrite filter_cons. destruct (is_idle o) eqn:Ho.
  - rewrite decide_False by discriminate. rewrite run_cons, IH. f_equal.
    destruct o as [config| |inputState| | | |]; try discriminate.
    + cbn [step is_idle] in *. unfold Update.
      destruct (IsKeyPressed inputState ESCAPE); [discriminate | reflexivity].
    + reflexivity.
  - rewrite decide_True by reflexivity. rewrite !run_cons. apply IH.
Qed.
